(** * Executor loader: resolution of a configured executor name

    A shallow embedding of [airflow/executors/executor_loader.py]:
    the [ConnectorSource] enum, the [ExecutorLoader.executors] registry and
    the four class methods [get_default_executor], [load_executor],
    [import_executor_cls] and [__load_celery_kubernetes_executor].

    Python code raises exceptions, calls collaborators that live in other
    modules and mutates one class attribute.  The embedding is a state and
    exception monad that also records, in order, every call the loader
    makes to a collaborator. *)

From Stdlib Require Import Ascii String.
From stdpp Require Import base strings gmap list.

Open Scope string_scope.

(** ** Exceptions and results *)

(** The exception classes the loader distinguishes.  [ImportError] stands
    for the class and its subclasses ([ModuleNotFoundError]);
    [OtherException] is any class that is none of the named ones. *)
Inductive exn : Type :=
| ImportError (msg : string)
| AttributeError (msg : string)
| KeyError (key : string)
| AirflowConfigException (msg : string)
| OtherException (descr : string).

Definition exn_str (e : exn) : string :=
  match e with
  | ImportError m | AttributeError m | KeyError m
  | AirflowConfigException m | OtherException m => m
  end.

Definition is_ImportError (e : exn) : bool :=
  match e with ImportError _ => true | _ => false end.

(** The classes listed in [suppress(ImportError, AttributeError)]. *)
Definition is_ImportError_or_AttributeError (e : exn) : bool :=
  match e with ImportError _ | AttributeError _ => true | _ => false end.

Inductive result (A : Type) : Type :=
| Ok (a : A)
| Raise (e : exn).
Arguments Ok {A} a.
Arguments Raise {A} e.

Definition result_map {A B} (f : A → B) (r : result A) : result B :=
  match r with
  | Ok a => Ok (f a)
  | Raise e => Raise e
  end.

(** ** [ConnectorSource] *)

Inductive ConnectorSource : Type := CORE | PLUGIN | CUSTOM_PATH.

(** The enum member's [.value]. *)
Definition ConnectorSource_value (c : ConnectorSource) : string :=
  match c with
  | CORE => "core"
  | PLUGIN => "plugin"
  | CUSTOM_PATH => "custom path"
  end.

(** ** Collaborators

    [import_string], [plugins_manager.integrate_executor_plugins],
    [conf.get] and the call of a loaded class are code outside the loader.
    Each is a function of an external world (the interpreter's module
    table, the plugin registry, the configuration) that returns a value or
    raises and leaves a new world.  The loader's own cache is not part of
    that world, so no collaborator resets it.  The function-level imports
    [from airflow import plugins_manager] and
    [from airflow.configuration import conf] are counted with the call that
    follows them.  Logging is recorded and never raises. *)
Class Platform : Type := {
  World : Type;
  (** what [import_string] returns: a loaded class *)
  PyType : Type;
  (** a Python object: what a call returns.  It is meant to be a
      [BaseExecutor], but nothing stops a loaded callable from returning
      [None] *)
  Obj : Type;
  (** [obj is None] *)
  is_None : Obj → bool;
  import_string_ext : string → World → result PyType * World;
  integrate_executor_plugins_ext : World → result () * World;
  (** calling a class with positional arguments *)
  call_ext : PyType → list Obj → World → result Obj * World;
  (** [conf.get(section, key)] *)
  conf_get_ext : string → string → World → result string * World;
}.

(** The names imported from [airflow.executors.executor_constants]; the
    loader only uses them as dictionary keys and in one comparison. *)
Class ExecutorConstants : Type := {
  LOCAL_EXECUTOR : string;
  SEQUENTIAL_EXECUTOR : string;
  CELERY_EXECUTOR : string;
  CELERY_KUBERNETES_EXECUTOR : string;
  DASK_EXECUTOR : string;
  KUBERNETES_EXECUTOR : string;
  DEBUG_EXECUTOR : string;
}.

Inductive log_level : Type := DEBUG | INFO | ERROR.

(** ** Strings *)

(** [s.count(c)] for a one-character [c]. *)
Fixpoint count_char (c : Ascii.ascii) (s : string) : nat :=
  match s with
  | EmptyString => 0
  | String a s' => (if Ascii.eqb a c then 1 else 0) + count_char c s'
  end.

Definition dquote : string := String "034"%char EmptyString.

(** [sub in s] *)
Definition contains (sub s : string) : Prop :=
  ∃ pre post, s = pre +:+ sub +:+ post.

(** A dict display: entries are stored left to right, a later entry
    replaces an earlier one with the same key. *)
Definition dict_display (entries : list (string * string)) : gmap string string :=
  foldl (λ d kv, <[kv.1 := kv.2]> d) ∅ entries.

Section Loader.
Context `{P : Platform} `{C : ExecutorConstants}.

(** ** The monad *)

Inductive event : Type :=
| EvImportString (dotted_path : string)
| EvIntegratePlugins
| EvCall (cls : PyType) (args : list Obj)
| EvConfGet (section key : string)
| EvLog (lvl : log_level) (msg : string) (args : list string).

Record state : Type := mkState {
  world : World;
  (** the class attribute [ExecutorLoader._default_executor] *)
  _default_executor : option Obj;
}.

Record outcome (A : Type) : Type := mkOutcome {
  res : result A;
  st : state;
  calls : list event;
}.
Arguments mkOutcome {A} res st calls.
Arguments res {A} o.
Arguments st {A} o.
Arguments calls {A} o.

Definition M (A : Type) : Type := state → outcome A.

Definition ret {A} (a : A) : M A := λ s, mkOutcome (Ok a) s [].

Definition raise {A} (e : exn) : M A := λ s, mkOutcome (Raise e) s [].

(** The outcome [o] of a computation that ran after the calls [earlier]. *)
Definition after {A} (earlier : list event) (o : outcome A) : outcome A :=
  mkOutcome (res o) (st o) (earlier ++ calls o).

Definition bind {A B} (m : M A) (f : A → M B) : M B := λ s,
  let o := m s in
  match res o with
  | Ok a => after (calls o) (f a (st o))
  | Raise e => mkOutcome (Raise e) (st o) (calls o)
  end.

(** [try: body / except <classes> as e: handler e] *)
Definition try_except {A} (body : M A) (classes : exn → bool)
    (handler : exn → M A) : M A := λ s,
  let o := body s in
  match res o with
  | Ok a => o
  | Raise e =>
      if classes e then after (calls o) (handler e (st o))
      else o
  end.

(** [with suppress(<classes>): body].  [Some a] when the body ran to its
    [return a]; [None] when a listed exception ended the block and
    control continues after it. *)
Definition suppress {A} (classes : exn → bool) (body : M A) : M (option A) :=
  try_except (bind body (λ a, ret (Some a))) classes (λ _, ret None).

#[export] Instance M_ret : MRet M := @ret.
#[export] Instance M_bind : MBind M := λ A B f m, bind m f.

(** Calls to the collaborators, each recorded. *)
Definition extern {A} (ev : event) (f : World → result A * World) : M A := λ s,
  let '(r, w) := f (world s) in
  mkOutcome r (mkState w (_default_executor s)) [ev].

Definition import_string (dotted_path : string) : M PyType :=
  extern (EvImportString dotted_path) (import_string_ext dotted_path).

Definition integrate_executor_plugins : M () :=
  extern EvIntegratePlugins integrate_executor_plugins_ext.

Definition call (cls : PyType) (args : list Obj) : M Obj :=
  extern (EvCall cls args) (call_ext cls args).

Definition conf_get (section key : string) : M string :=
  extern (EvConfGet section key) (conf_get_ext section key).

Definition log (lvl : log_level) (msg : string) (args : list string) : M () :=
  λ s, mkOutcome (Ok ()) s [EvLog lvl msg args].

(** The attribute is [None] or an object that is not [None]:
    [get_default] answers the test [cls._default_executor is not None]. *)
Definition get_default : M (option Obj) :=
  λ s, mkOutcome (Ok (_default_executor s)) s [].

(** [cls._default_executor = e].  Assigning [None] leaves the attribute as
    it is when nothing is cached. *)
Definition set_default (e : Obj) : M () :=
  λ s, mkOutcome (Ok ())
         (mkState (world s) (if is_None e then None else Some e)) [].

(** ** [ExecutorLoader] *)

Definition executors : gmap string string :=
  dict_display [
    (LOCAL_EXECUTOR, "airflow.executors.local_executor.LocalExecutor");
    (SEQUENTIAL_EXECUTOR, "airflow.executors.sequential_executor.SequentialExecutor");
    (CELERY_EXECUTOR, "airflow.executors.celery_executor.CeleryExecutor");
    (CELERY_KUBERNETES_EXECUTOR,
       "airflow.executors.celery_kubernetes_executor.CeleryKubernetesExecutor");
    (DASK_EXECUTOR, "airflow.executors.dask_executor.DaskExecutor");
    (KUBERNETES_EXECUTOR, "airflow.executors.kubernetes_executor.KubernetesExecutor");
    (DEBUG_EXECUTOR, "airflow.executors.debug_executor.DebugExecutor")
  ].

(** [cls.executors[key]] *)
Definition executors_getitem (key : string) : M string :=
  match executors !! key with
  | Some location => ret location
  | None => raise (KeyError key)
  end.

(** The body of the [with suppress(...)] block. *)
Definition plugin_convention (executor_name : string)
    : M (PyType * ConnectorSource) :=
  integrate_executor_plugins;;
  cls ← import_string ("airflow.executors." +:+ executor_name);
  mret (cls, PLUGIN).

Definition literal_path (executor_name : string)
    : M (PyType * ConnectorSource) :=
  cls ← import_string executor_name;
  mret (cls, CUSTOM_PATH).

Definition import_executor_cls (executor_name : string)
    : M (PyType * ConnectorSource) :=
  match executors !! executor_name with
  | Some location =>
      cls ← import_string location;
      mret (cls, CORE)
  | None =>
      returned ←
        (if (count_char "."%char executor_name =? 1)%nat then
           log DEBUG
             ("The executor name looks like the plugin path (executor_name=%s). "
              +:+ "Trying to import a executor from a plugin")
             [executor_name];;
           suppress is_ImportError_or_AttributeError
             (plugin_convention executor_name)
         else mret None);
      match returned with
      | Some found => mret found
      | None => literal_path executor_name
      end
  end.

Definition __load_celery_kubernetes_executor : M Obj :=
  celery_location ← executors_getitem CELERY_EXECUTOR;
  celery_cls ← import_string celery_location;
  celery_executor ← call celery_cls [];
  kubernetes_location ← executors_getitem KUBERNETES_EXECUTOR;
  kubernetes_cls ← import_string kubernetes_location;
  kubernetes_executor ← call kubernetes_cls [];
  composite_location ← executors_getitem CELERY_KUBERNETES_EXECUTOR;
  celery_kubernetes_executor_cls ← import_string composite_location;
  call celery_kubernetes_executor_cls [celery_executor; kubernetes_executor].

(** The text of the [AirflowConfigException] raised by [load_executor]. *)
Definition load_error_message (executor_name : string) : string :=
  "The module/attribute could not be loaded. Please check "
  +:+ dquote +:+ "executor" +:+ dquote +:+ " key in "
  +:+ dquote +:+ "core" +:+ dquote +:+ " section. "
  +:+ "Current value: " +:+ dquote +:+ executor_name +:+ dquote +:+ ".".

Definition load_executor (executor_name : string) : M Obj :=
  if String.eqb executor_name CELERY_KUBERNETES_EXECUTOR then
    __load_celery_kubernetes_executor
  else
    imported ←
      try_except
        (imported ← import_executor_cls executor_name;
         log DEBUG "Loading executor %s from %s"
           [executor_name; ConnectorSource_value imported.2];;
         mret imported)
        is_ImportError
        (λ e,
           log ERROR (exn_str e) [];;
           raise (AirflowConfigException (load_error_message executor_name)));
    log INFO "Loaded executor: %s" [executor_name];;
    call imported.1 [].

(** The final [return cls._default_executor] reads the attribute assigned
    on the line before it, that is [executor], [None] included; the test
    [is not None] of a later call then finds nothing cached. *)
Definition get_default_executor : M Obj :=
  cached ← get_default;
  match cached with
  | Some executor => mret executor
  | None =>
      executor_name ← conf_get "core" "EXECUTOR";
      executor ← load_executor executor_name;
      set_default executor;;
      mret executor
  end.

(** ** Vocabulary of the statements *)

(** The keys written in the [executors] display. *)
Definition registry_keys : list string :=
  [LOCAL_EXECUTOR; SEQUENTIAL_EXECUTOR; CELERY_EXECUTOR;
   CELERY_KUBERNETES_EXECUTOR; DASK_EXECUTOR; KUBERNETES_EXECUTOR;
   DEBUG_EXECUTOR].

(** The location the last applicable strategy of [import_executor_cls]
    loads: the registered one for a registry key, the name itself
    otherwise. *)
Definition final_location (executor_name : string) : string :=
  default executor_name (executors !! executor_name).

(** The debug line [import_executor_cls] logs before it tries the plugin
    convention. *)
Definition plugin_debug_line (name : string) : event :=
  EvLog DEBUG
    ("The executor name looks like the plugin path (executor_name=%s). "
     +:+ "Trying to import a executor from a plugin")
    [name].

Definition is_conf_get (section key : string) (ev : event) : bool :=
  match ev with
  | EvConfGet section' key' => String.eqb section' section && String.eqb key' key
  | _ => false
  end.

Fixpoint count_events (p : event → bool) (tr : list event) : nat :=
  match tr with
  | [] => 0
  | ev :: tr' => (if p ev then 1 else 0) + count_events p tr'
  end.

(** A computation that only makes calls satisfying [Q] and leaves
    [_default_executor] as it found it. *)
Definition confined (Q : event → Prop) {A} (m : M A) : Prop :=
  ∀ s, Forall Q (calls (m s))
       ∧ _default_executor (st (m s)) = _default_executor s.

(** One of the three loads of [__load_celery_kubernetes_executor] raises
    [e], everything before it having succeeded. *)
Inductive composite_load_fails (s : state) (e : exn) : Prop :=
| celery_load_fails celery_location w1 :
    executors !! CELERY_EXECUTOR = Some celery_location →
    import_string_ext celery_location (world s) = (Raise e, w1) →
    composite_load_fails s e
| kubernetes_load_fails celery_location celery_cls w1 celery w2
    kubernetes_location w3 :
    executors !! CELERY_EXECUTOR = Some celery_location →
    import_string_ext celery_location (world s) = (Ok celery_cls, w1) →
    call_ext celery_cls [] w1 = (Ok celery, w2) →
    executors !! KUBERNETES_EXECUTOR = Some kubernetes_location →
    import_string_ext kubernetes_location w2 = (Raise e, w3) →
    composite_load_fails s e
| composite_type_load_fails celery_location celery_cls w1 celery w2
    kubernetes_location kubernetes_cls w3 kubernetes w4
    composite_location w5 :
    executors !! CELERY_EXECUTOR = Some celery_location →
    import_string_ext celery_location (world s) = (Ok celery_cls, w1) →
    call_ext celery_cls [] w1 = (Ok celery, w2) →
    executors !! KUBERNETES_EXECUTOR = Some kubernetes_location →
    import_string_ext kubernetes_location w2 = (Ok kubernetes_cls, w3) →
    call_ext kubernetes_cls [] w3 = (Ok kubernetes, w4) →
    executors !! CELERY_KUBERNETES_EXECUTOR = Some composite_location →
    import_string_ext composite_location w4 = (Raise e, w5) →
    composite_load_fails s e.

(** ** The rest of the module *)

(** The module-level tuple [UNPICKLEABLE_EXECUTORS]. *)
Definition UNPICKLEABLE_EXECUTORS : list string :=
  [LOCAL_EXECUTOR; SEQUENTIAL_EXECUTOR; DASK_EXECUTOR].

(** Kinds of calls, for counting them. *)
Definition is_import_string (ev : event) : bool :=
  match ev with EvImportString _ => true | _ => false end.

Definition is_integrate (ev : event) : bool :=
  match ev with EvIntegratePlugins => true | _ => false end.

Definition is_call (ev : event) : bool :=
  match ev with EvCall _ _ => true | _ => false end.

Definition is_any_conf_get (ev : event) : bool :=
  match ev with EvConfGet _ _ => true | _ => false end.

End Loader.

Arguments mkOutcome {P A} res st calls.
Arguments res {P A} o.
Arguments st {P A} o.
Arguments calls {P A} o.
Arguments after {P A} earlier !o /.

(** ** A small platform to run the loader on

    Classes are named by the dotted path they are loaded from.  An instance
    records the serial number it was created with, its class and the serial
    numbers of its constructor arguments.  The world is the list of loadable
    paths and the next serial number. *)
Module Sample.

Record instance : Type := Instance {
  serial : nat;
  cls_of : string;
  args_of : list nat;
}.

Record interpreter : Type := mkInterpreter {
  loadable : list string;
  next_serial : nat;
}.

Definition load_path (dotted_path : string) (w : interpreter)
    : result string * interpreter :=
  if bool_decide (dotted_path ∈ loadable w) then (Ok dotted_path, w)
  else (Raise (ImportError ("No module named " +:+ dotted_path)), w).

Definition construct (cls : string) (args : list instance) (w : interpreter)
    : result instance * interpreter :=
  (Ok (Instance (next_serial w) cls (serial <$> args)),
   mkInterpreter (loadable w) (S (next_serial w))).

Definition read_conf (configured : string) (section key : string) (w : interpreter)
    : result string * interpreter :=
  if String.eqb section "core" && String.eqb key "EXECUTOR"
  then (Ok configured, w)
  else (Raise (AirflowConfigException
                 ("section/key [" +:+ section +:+ "/" +:+ key
                  +:+ "] not found in config")), w).

(** Plugin integration that makes the plugins' executors loadable. *)
Definition integrate_registers (plugin_paths : list string) (w : interpreter)
    : result () * interpreter :=
  (Ok (), mkInterpreter (plugin_paths ++ loadable w) (next_serial w)).

(** Plugin integration that raises. *)
Definition integrate_raises (e : exn) (w : interpreter) : result () * interpreter :=
  (Raise e, w).

Definition platform (integrate : interpreter → result () * interpreter)
    (configured : string) : Platform := {|
  World := interpreter;
  PyType := string;
  Obj := instance;
  is_None := λ _, false;
  import_string_ext := load_path;
  integrate_executor_plugins_ext := integrate;
  call_ext := construct;
  conf_get_ext := read_conf configured;
|}.

Definition constants : ExecutorConstants := {|
  LOCAL_EXECUTOR := "LocalExecutor";
  SEQUENTIAL_EXECUTOR := "SequentialExecutor";
  CELERY_EXECUTOR := "CeleryExecutor";
  CELERY_KUBERNETES_EXECUTOR := "CeleryKubernetesExecutor";
  DASK_EXECUTOR := "DaskExecutor";
  KUBERNETES_EXECUTOR := "KubernetesExecutor";
  DEBUG_EXECUTOR := "DebugExecutor";
|}.

(** Every core executor can be loaded. *)
Definition core_paths : list string := [
  "airflow.executors.local_executor.LocalExecutor";
  "airflow.executors.sequential_executor.SequentialExecutor";
  "airflow.executors.celery_executor.CeleryExecutor";
  "airflow.executors.celery_kubernetes_executor.CeleryKubernetesExecutor";
  "airflow.executors.dask_executor.DaskExecutor";
  "airflow.executors.kubernetes_executor.KubernetesExecutor";
  "airflow.executors.debug_executor.DebugExecutor"
].

(** A process that has not resolved its default executor yet. *)
Definition boot (integrate : interpreter → result () * interpreter) (configured : string)
    (paths : list string) : @state (platform integrate configured) :=
  @mkState (platform integrate configured) (mkInterpreter paths 0) None.

(** No plugin contributes an executor; the configuration names
    [LocalExecutor]. *)
Definition plain : Platform := platform (integrate_registers []) "LocalExecutor".

Definition plain_boot : @state plain :=
  boot (integrate_registers []) "LocalExecutor" core_paths.

(** Two more classes can be loaded, from outside [airflow.executors]. *)
Definition custom_boot : @state plain :=
  boot (integrate_registers []) "LocalExecutor"
    ("mymodule.MyBackend" :: "my.custom.path.Executor" :: core_paths).

(** The celery executor cannot be loaded. *)
Definition no_celery_boot : @state plain :=
  boot (integrate_registers []) "LocalExecutor"
    (List.filter
       (λ path, negb (String.eqb path
                        "airflow.executors.celery_executor.CeleryExecutor"))
       core_paths).

(** The configuration names something that cannot be loaded. *)
Definition misconfigured : Platform :=
  platform (integrate_registers []) "totally.bogus.path.NoSuchType".

Definition misconfigured_boot : @state misconfigured :=
  boot (integrate_registers []) "totally.bogus.path.NoSuchType" core_paths.

(** Plugin integration raises an exception that is neither an
    [ImportError] nor an [AttributeError]. *)
Definition plugins_broken : exn :=
  OtherException "AirflowPluginException: Can't load plugins.".

Definition broken_plugins : Platform :=
  platform (integrate_raises plugins_broken) "LocalExecutor".

Definition broken_plugins_boot : @state broken_plugins :=
  boot (integrate_raises plugins_broken) "LocalExecutor"
    ("mymodule.MyBackend" :: core_paths).

(** A plugin provides [myplugin.MyExecutor]; a class can also be loaded
    from the path [myplugin.MyExecutor] itself. *)
Definition with_plugin : Platform :=
  platform (integrate_registers ["airflow.executors.myplugin.MyExecutor"])
    "myplugin.MyExecutor".

Definition with_plugin_boot : @state with_plugin :=
  boot (integrate_registers ["airflow.executors.myplugin.MyExecutor"])
    "myplugin.MyExecutor" ("myplugin.MyExecutor" :: core_paths).

(** The constructor of the class [bad] raises [e]. *)
Definition construct_unless (bad : string) (e : exn) (cls : string)
    (args : list instance) (w : interpreter) : result instance * interpreter :=
  if String.eqb cls bad then (Raise e, w) else construct cls args w.

Definition fragile (bad : string) (e : exn) : Platform := {|
  World := interpreter;
  PyType := string;
  Obj := instance;
  is_None := λ _, false;
  import_string_ext := load_path;
  integrate_executor_plugins_ext := integrate_registers [];
  call_ext := construct_unless bad e;
  conf_get_ext := read_conf "LocalExecutor";
|}.

Definition fragile_boot (bad : string) (e : exn) : @state (fragile bad e) :=
  @mkState (fragile bad e) (mkInterpreter core_paths 0) None.

(** The configuration has no [core] section. *)
Definition unconfigured : Platform := {|
  World := interpreter;
  PyType := string;
  Obj := instance;
  is_None := λ _, false;
  import_string_ext := load_path;
  integrate_executor_plugins_ext := integrate_registers [];
  call_ext := construct;
  conf_get_ext := λ section key w,
    (Raise (AirflowConfigException
              ("section/key [" +:+ section +:+ "/" +:+ key
               +:+ "] not found in config")), w);
|}.

Definition unconfigured_boot : @state unconfigured :=
  @mkState unconfigured (mkInterpreter core_paths 0) None.

(** Objects may be [None] here: the path [gc.enable] names a function,
    and calling it returns [None]; every other class builds an instance. *)
Definition call_or_none (cls : string) (args : list (option instance))
    (w : interpreter) : result (option instance) * interpreter :=
  if String.eqb cls "gc.enable" then (Ok None, w)
  else (Ok (Some (Instance (next_serial w) cls (omap (fmap serial) args))),
        mkInterpreter (loadable w) (S (next_serial w))).

Definition returns_none : Platform := {|
  World := interpreter;
  PyType := string;
  Obj := option instance;
  is_None := λ o, match o with None => true | Some _ => false end;
  import_string_ext := load_path;
  integrate_executor_plugins_ext := integrate_registers [];
  call_ext := call_or_none;
  conf_get_ext := read_conf "gc.enable";
|}.

Definition returns_none_boot : @state returns_none :=
  @mkState returns_none (mkInterpreter ("gc.enable" :: core_paths) 0) None.

End Sample.

(** * Properties of the loader *)

Section LoaderFacts.
Context `{P : Platform} `{C : ExecutorConstants}.

(** ** The registry *)

Lemma dict_display_is_Some (entries : list (string * string)) (k : string) :
  is_Some (dict_display entries !! k) ↔ k ∈ entries.*1.
Proof.
  unfold dict_display.
  assert (G : ∀ (d : gmap string string),
             is_Some (foldl (λ d kv, <[kv.1 := kv.2]> d) d entries !! k)
             ↔ is_Some (d !! k) ∨ k ∈ entries.*1).
  { induction entries as [|[k' v'] entries IH]; intros d; simpl.
    - rewrite elem_of_nil. tauto.
    - rewrite IH, elem_of_cons, lookup_insert_is_Some. 
      destruct (decide (k' = k)); intuition congruence. }
  rewrite G, lookup_empty, is_Some_alt. tauto.
Qed.

Lemma executors_is_Some (name : string) :
  is_Some (executors !! name) ↔ name ∈ registry_keys.
Proof. unfold executors. by rewrite dict_display_is_Some. Qed.

Lemma executors_celery : is_Some (executors !! CELERY_EXECUTOR).
Proof. apply executors_is_Some. unfold registry_keys. set_solver. Qed.

Lemma executors_kubernetes : is_Some (executors !! KUBERNETES_EXECUTOR).
Proof. apply executors_is_Some. unfold registry_keys. set_solver. Qed.

Lemma executors_celery_kubernetes :
  is_Some (executors !! CELERY_KUBERNETES_EXECUTOR).
Proof. apply executors_is_Some. unfold registry_keys. set_solver. Qed.

(** ** Running the monad *)

Ltac unfold_loader :=
  unfold mbind, M_bind, mret, M_ret in *;
  unfold suppress, import_string, integrate_executor_plugins, call, conf_get,
    log, get_default, set_default in *;
  unfold try_except, bind, ret, raise, extern in *;
  simpl in *.

(** Splits on the answer of the collaborator that is called next. *)
Ltac ask_collaborator :=
  match goal with
  | |- context [import_string_ext ?p ?w] =>
      let E := fresh "Eimp" in
      destruct (import_string_ext p w) as [[?cls|?err] ?wld] eqn:E; simpl
  | |- context [integrate_executor_plugins_ext ?w] =>
      let E := fresh "Eint" in
      destruct (integrate_executor_plugins_ext w) as [[[]|?err] ?wld] eqn:E; simpl
  | |- context [call_ext ?c ?a ?w] =>
      let E := fresh "Ecall" in
      destruct (call_ext c a w) as [[?obj|?err] ?wld] eqn:E; simpl
  | |- context [conf_get_ext ?x ?y ?w] =>
      let E := fresh "Econf" in
      destruct (conf_get_ext x y w) as [[?configured|?err] ?wld] eqn:E; simpl
  end.

Lemma after_nil {A} (o : outcome A) : after [] o = o.
Proof. by destruct o. Qed.

(** ** Registry names *)

Lemma import_executor_cls_registry (name location : string) (s : state) :
  executors !! name = Some location →
  import_executor_cls name s =
    mkOutcome
      (result_map (λ cls, (cls, CORE)) (import_string_ext location (world s)).1)
      (mkState (import_string_ext location (world s)).2 (_default_executor s))
      [EvImportString location].
Proof.
  intros Hkey. unfold import_executor_cls. rewrite Hkey.
  unfold_loader. by ask_collaborator.
Qed.

Lemma load_executor_generic (name : string) (s : state) :
  name ≠ CELERY_KUBERNETES_EXECUTOR →
  load_executor name s =
    (imported ←
       try_except
         (imported ← import_executor_cls name;
          log DEBUG "Loading executor %s from %s"
            [name; ConnectorSource_value imported.2];;
          mret imported)
         is_ImportError
         (λ e,
            log ERROR (exn_str e) [];;
            raise (AirflowConfigException (load_error_message name)));
     log INFO "Loaded executor: %s" [name];;
     call imported.1 []) s.
Proof.
  intros Hne. unfold load_executor.
  by destruct (String.eqb_spec name CELERY_KUBERNETES_EXECUTOR).
Qed.

(** C6, amended. For every key of the registry [import_executor_cls] loads
    the key's dotted location and, when the load succeeds, returns the
    loaded class tagged [CORE]. For every key other than
    [CELERY_KUBERNETES_EXECUTOR], [load_executor] then calls that class
    with no constructor argument, and this is the only call of a class it
    makes. *)
Theorem registry_key_resolves_core (name location : string) (s : state) :
  executors !! name = Some location →
  res (import_executor_cls name s) =
    result_map (λ cls, (cls, CORE)) (import_string_ext location (world s)).1
  ∧ (name ≠ CELERY_KUBERNETES_EXECUTOR →
     ∀ cls w, import_string_ext location (world s) = (Ok cls, w) →
       res (load_executor name s) = (call_ext cls [] w).1
       ∧ calls (load_executor name s) =
           [EvImportString location;
            EvLog DEBUG "Loading executor %s from %s" [name; "core"];
            EvLog INFO "Loaded executor: %s" [name];
            EvCall cls []]).
Proof.
  intros Hkey. split.
  - by rewrite (import_executor_cls_registry _ _ _ Hkey).
  - intros Hne cls w Himp.
    rewrite (load_executor_generic _ _ Hne).
    unfold_loader.
    rewrite (import_executor_cls_registry _ _ _ Hkey), Himp. simpl.
    by ask_collaborator.
Qed.

(** C9. [import_executor_cls] has no composite case: given
    [CELERY_KUBERNETES_EXECUTOR] it finds the name in the registry, loads
    the registered location and tags the class [CORE]; the one call it makes
    is that load, so nothing is constructed. *)
Theorem import_executor_cls_composite_name (s : state) :
  ∃ location,
    executors !! CELERY_KUBERNETES_EXECUTOR = Some location
    ∧ res (import_executor_cls CELERY_KUBERNETES_EXECUTOR s) =
        result_map (λ cls, (cls, CORE))
          (import_string_ext location (world s)).1
    ∧ calls (import_executor_cls CELERY_KUBERNETES_EXECUTOR s) =
        [EvImportString location].
Proof.
  destruct executors_celery_kubernetes as [location Hkey].
  exists location. by rewrite (import_executor_cls_registry _ _ _ Hkey).
Qed.

(** ** The composite executor *)


(** C5, amended. When one of the loads of the composite construction (the
    celery class, the kubernetes class or the composite class) raises,
    [load_executor] raises that same exception: the composite case returns
    before the [try] that turns an [ImportError] into an
    [AirflowConfigException]. *)
Theorem load_executor_composite_load_error (s : state) (e : exn) :
  composite_load_fails s e →
  res (load_executor CELERY_KUBERNETES_EXECUTOR s) = Raise e.
Proof.
  unfold load_executor. rewrite String.eqb_refl.
  unfold __load_celery_kubernetes_executor, executors_getitem.
  intros [lc w1 Hc H1
         |lc cc w1 c w2 lk w3 Hc H1 H2 Hk H3
         |lc cc w1 c w2 lk ck w3 k w4 lck w5 Hc H1 H2 Hk H3 H4 Hck H5];
    rewrite Hc; unfold_loader; rewrite H1; simpl; try done;
    rewrite H2; simpl; rewrite Hk; simpl; rewrite H3; simpl; try done;
    rewrite H4; simpl; rewrite Hck; simpl; by rewrite H5.
Qed.

(** ** Dotted locations *)

(** C7. A name that is not a registry key and has more than one ["."] is
    loaded as it stands: when that load succeeds [import_executor_cls]
    returns the loaded class tagged [CUSTOM_PATH], and the load is the only
    call made, so the plugin convention is not tried. *)
Theorem import_executor_cls_custom_path (name : string) (s : state)
    (cls : PyType) (w : World) :
  executors !! name = None →
  1 < count_char "." name →
  import_string_ext name (world s) = (Ok cls, w) →
  res (import_executor_cls name s) = Ok (cls, CUSTOM_PATH)
  ∧ calls (import_executor_cls name s) = [EvImportString name].
Proof.
  intros Hkey Hdots Himp. unfold import_executor_cls, literal_path.
  rewrite Hkey.
  destruct (Nat.eqb_spec (count_char "." name) 1) as [Heq|_]; [lia|].
  unfold_loader. by rewrite Himp.
Qed.

(** ** Names that look like a plugin path *)

Lemma import_executor_cls_plugin_shaped (name : string) (s : state) :
  executors !! name = None →
  count_char "." name = 1 →
  import_executor_cls name s =
    after [plugin_debug_line name]
      match res (plugin_convention name s) with
      | Ok found => plugin_convention name s
      | Raise e =>
          if is_ImportError_or_AttributeError e then
            after (calls (plugin_convention name s))
              (literal_path name (st (plugin_convention name s)))
          else plugin_convention name s
      end.
Proof.
  intros Hkey Hdots. unfold import_executor_cls. rewrite Hkey, Hdots.
  unfold plugin_debug_line. unfold_loader.
  destruct (plugin_convention name s) as [[found|e] s1 tr]; simpl.
  - by rewrite ?app_nil_r.
  - destruct (is_ImportError_or_AttributeError e); simpl; [|done].
    rewrite app_nil_r. by destruct (literal_path name s1).
Qed.

Lemma import_executor_cls_not_plugin_shaped (name : string) (s : state) :
  executors !! name = None →
  count_char "." name ≠ 1 →
  import_executor_cls name s = literal_path name s.
Proof.
  intros Hkey Hdots. unfold import_executor_cls. rewrite Hkey.
  destruct (Nat.eqb_spec (count_char "." name) 1) as [Heq|_]; [done|].
  unfold_loader. by destruct (literal_path name s).
Qed.

Lemma literal_path_run (name : string) (s : state) :
  literal_path name s =
    mkOutcome
      (result_map (λ cls, (cls, CUSTOM_PATH)) (import_string_ext name (world s)).1)
      (mkState (import_string_ext name (world s)).2 (_default_executor s))
      [EvImportString name].
Proof. unfold literal_path. unfold_loader. by ask_collaborator. Qed.

(** What [load_executor] does with the outcome of [import_executor_cls]. *)
Lemma load_executor_after_import (name : string) (s : state) :
  name ≠ CELERY_KUBERNETES_EXECUTOR →
  res (load_executor name s) =
    match res (import_executor_cls name s) with
    | Ok imported =>
        (call_ext imported.1 [] (world (st (import_executor_cls name s)))).1
    | Raise e =>
        if is_ImportError e
        then Raise (AirflowConfigException (load_error_message name))
        else Raise e
    end.
Proof.
  intros Hne. rewrite (load_executor_generic _ _ Hne). unfold_loader.
  destruct (import_executor_cls name s) as [[imported|e] s1 tr]; simpl.
  - by ask_collaborator.
  - by destruct (is_ImportError e).
Qed.

(** C1, amended. For a name that is not [CELERY_KUBERNETES_EXECUTOR], is
    not a registry key and has exactly one ["."]: when the plugin
    convention (plugin integration, then the load of the name under
    [airflow.executors.]) raises an [ImportError] or an [AttributeError],
    [import_executor_cls] goes on to load the name as it stands, in the
    state the plugin attempt left, and returns that class tagged
    [CUSTOM_PATH] or raises what that load raises. [load_executor] then
    raises its [AirflowConfigException] only when that load raised an
    [ImportError]; when the load succeeds it calls the class. *)
Theorem import_executor_cls_plugin_fallthrough (name : string) (s : state)
    (e : exn) :
  name ≠ CELERY_KUBERNETES_EXECUTOR →
  executors !! name = None →
  count_char "." name = 1 →
  res (plugin_convention name s) = Raise e →
  is_ImportError_or_AttributeError e = true →
  let s1 := st (plugin_convention name s) in
  res (import_executor_cls name s) =
    result_map (λ cls, (cls, CUSTOM_PATH)) (import_string_ext name (world s1)).1
  ∧ calls (import_executor_cls name s) =
      plugin_debug_line name :: calls (plugin_convention name s)
      ++ [EvImportString name]
  ∧ res (load_executor name s) =
      match import_string_ext name (world s1) with
      | (Ok cls, w) => (call_ext cls [] w).1
      | (Raise e', _) =>
          if is_ImportError e'
          then Raise (AirflowConfigException (load_error_message name))
          else Raise e'
      end.
Proof.
  intros Hne Hkey Hdots Hplugin Hclass s1.
  rewrite (load_executor_after_import _ _ Hne).
  rewrite (import_executor_cls_plugin_shaped _ _ Hkey Hdots).
  rewrite Hplugin, Hclass, literal_path_run. fold s1. simpl.
  by destruct (import_string_ext name (world s1)) as [[cls|e'] w].
Qed.

(** ** Resolution failures *)

Lemma load_error_message_contains (name : string) :
  contains name (load_error_message name).
Proof.
  exists ("The module/attribute could not be loaded. Please check "
          +:+ dquote +:+ "executor" +:+ dquote +:+ " key in "
          +:+ dquote +:+ "core" +:+ dquote +:+ " section. "
          +:+ "Current value: " +:+ dquote),
         (dquote +:+ ".").
  reflexivity.
Qed.

Lemma import_error_from_final_load (name : string) (s : state) (msg : string) :
  res (import_executor_cls name s) = Raise (ImportError msg) →
  ∃ pre w w',
    calls (import_executor_cls name s) =
      (pre ++ [EvImportString (final_location name)])%list
    ∧ import_string_ext (final_location name) w = (Raise (ImportError msg), w').
Proof.
  unfold final_location.
  destruct (executors !! name) as [location|] eqn:Hkey; simpl.
  - rewrite (import_executor_cls_registry _ _ _ Hkey). simpl.
    destruct (import_string_ext location (world s)) as [[cls|e] w'] eqn:Himp;
      simpl; [done|].
    intros [= ->]. by exists [], (world s), w'.
  - destruct (decide (count_char "." name = 1)) as [Hdots|Hdots].
    + rewrite (import_executor_cls_plugin_shaped _ _ Hkey Hdots).
      destruct (plugin_convention name s) as [[found|e] s1 tr]; simpl; [done|].
      destruct e; simpl; try done; rewrite literal_path_run; simpl;
        destruct (import_string_ext name (world s1)) as [[cls|e'] w'] eqn:Himp;
        simpl; try done; intros [= ->];
        by exists (plugin_debug_line name :: tr), (world s1), w'.
    + rewrite (import_executor_cls_not_plugin_shaped _ _ Hkey Hdots).
      rewrite literal_path_run. simpl.
      destruct (import_string_ext name (world s)) as [[cls|e] w'] eqn:Himp;
        simpl; [done|].
      intros [= ->]. by exists [], (world s), w'.
Qed.

(** C2. For a name other than [CELERY_KUBERNETES_EXECUTOR], when the
    resolution ends in an [ImportError] (which can only be raised by the
    load of the last applicable strategy, the last call made),
    [load_executor] raises an [AirflowConfigException] in its place, and
    the message of that exception contains the name it was given. *)
Theorem load_executor_import_error (name : string) (s : state) (msg : string) :
  name ≠ CELERY_KUBERNETES_EXECUTOR →
  res (import_executor_cls name s) = Raise (ImportError msg) →
  res (load_executor name s) =
    Raise (AirflowConfigException (load_error_message name))
  ∧ contains name (load_error_message name)
  ∧ ∃ pre w w',
      calls (import_executor_cls name s) =
        (pre ++ [EvImportString (final_location name)])%list
      ∧ import_string_ext (final_location name) w =
          (Raise (ImportError msg), w').
Proof.
  intros Hne Himp. split; [|split].
  - by rewrite (load_executor_after_import _ _ Hne), Himp.
  - apply load_error_message_contains.
  - by apply import_error_from_final_load.
Qed.

(** ** What a computation may call *)

Lemma confined_ret {A} (Q : event → Prop) (a : A) : confined Q (ret a).
Proof. by intros s. Qed.

Lemma confined_raise {A} (Q : event → Prop) (e : exn) :
  confined Q (@raise _ A e).
Proof. by intros s. Qed.

Lemma confined_log (Q : event → Prop) lvl msg args :
  Q (EvLog lvl msg args) → confined Q (log lvl msg args).
Proof. intros HQ s. split; [by repeat constructor|done]. Qed.

Lemma confined_extern {A} (Q : event → Prop) (ev : event)
    (f : World → result A * World) :
  Q ev → confined Q (extern ev f).
Proof.
  intros HQ s. unfold extern. destruct (f (world s)); simpl.
  split; [by repeat constructor|done].
Qed.

Lemma confined_bind {A B} (Q : event → Prop) (m : M A) (f : A → M B) :
  confined Q m → (∀ a, confined Q (f a)) → confined Q (bind m f).
Proof.
  intros Hm Hf s. unfold bind. destruct (Hm s) as [Hcalls Hcache].
  destruct (m s) as [[a|e] s1 tr]; simpl in *; [|done].
  destruct (Hf a s1) as [Hcalls' Hcache'].
  destruct (f a s1) as [r s2 tr']; simpl in *.
  split; [by apply Forall_app|congruence].
Qed.

Lemma confined_try_except {A} (Q : event → Prop) (body : M A)
    (classes : exn → bool) (handler : exn → M A) :
  confined Q body → (∀ e, confined Q (handler e)) →
  confined Q (try_except body classes handler).
Proof.
  intros Hm Hh s. unfold try_except. destruct (Hm s) as [Hcalls Hcache].
  destruct (body s) as [[a|e] s1 tr]; simpl in *; [done|].
  destruct (classes e); simpl; [|done].
  destruct (Hh e s1) as [Hcalls' Hcache'].
  destruct (handler e s1) as [r s2 tr']; simpl in *.
  split; [by apply Forall_app|congruence].
Qed.

Lemma confined_suppress {A} (Q : event → Prop) (classes : exn → bool)
    (body : M A) :
  confined Q body → confined Q (suppress classes body).
Proof.
  intros Hm. apply confined_try_except.
  - apply confined_bind; [done|]. intros a. apply confined_ret.
  - intros e. apply confined_ret.
Qed.

Ltac confine :=
  unfold mbind, M_bind, mret, M_ret, import_string,
    integrate_executor_plugins, call, conf_get;
  repeat first
    [ apply confined_ret | apply confined_raise
    | apply confined_log | apply confined_extern
    | apply confined_suppress
    | apply confined_try_except; [|intros ?]
    | apply confined_bind; [|intros ?]
    | match goal with
      | |- confined _ (match ?o with Some _ => _ | None => _ end) => destruct o
      end
    | done ].

Lemma confined_import_executor_cls (Q : event → Prop) (name : string) :
  (∀ location, Q (EvImportString location)) →
  (∀ lvl msg args, Q (EvLog lvl msg args)) →
  (executors !! name = None → count_char "." name = 1 → Q EvIntegratePlugins) →
  confined Q (import_executor_cls name).
Proof.
  intros Himp Hlog Hint. unfold import_executor_cls.
  destruct (executors !! name) as [location|]; [confine|].
  destruct (Nat.eqb_spec (count_char "." name) 1) as [Hdots|Hdots].
  - unfold plugin_convention, literal_path. confine.
    by apply Hint.
  - unfold literal_path. confine.
Qed.

Lemma confined_composite_builder (Q : event → Prop) :
  (∀ location, Q (EvImportString location)) →
  (∀ cls args, Q (EvCall cls args)) →
  confined Q __load_celery_kubernetes_executor.
Proof.
  intros Himp Hcall.
  unfold __load_celery_kubernetes_executor, executors_getitem.
  destruct (executors !! CELERY_EXECUTOR),
    (executors !! KUBERNETES_EXECUTOR),
    (executors !! CELERY_KUBERNETES_EXECUTOR); confine.
Qed.

Lemma confined_load_executor (Q : event → Prop) (name : string) :
  (∀ location, Q (EvImportString location)) →
  (∀ lvl msg args, Q (EvLog lvl msg args)) →
  (∀ cls args, Q (EvCall cls args)) →
  (name ≠ CELERY_KUBERNETES_EXECUTOR → executors !! name = None →
   count_char "." name = 1 → Q EvIntegratePlugins) →
  confined Q (load_executor name).
Proof.
  intros Himp Hlog Hcall Hint. unfold load_executor.
  destruct (String.eqb_spec name CELERY_KUBERNETES_EXECUTOR) as [Heq|Hne].
  - by apply confined_composite_builder.
  - confine. apply confined_import_executor_cls; auto.
Qed.

(** ** The plugin collaborator *)

(** C8. Plugin integration is called on the plugin strategy only: for a
    name that is [CELERY_KUBERNETES_EXECUTOR], or a registry key, or that
    does not have exactly one ["."], neither [load_executor] nor
    [import_executor_cls] calls [integrate_executor_plugins]. *)
Theorem integrate_plugins_not_called (name : string) (s : state) :
  (name = CELERY_KUBERNETES_EXECUTOR
   ∨ is_Some (executors !! name)
   ∨ count_char "." name ≠ 1) →
  (EvIntegratePlugins ∉ calls (load_executor name s))
  ∧ (EvIntegratePlugins ∉ calls (import_executor_cls name s)).
Proof.
  intros Hname.
  assert (Hnever : executors !! name = None → count_char "." name = 1 →
                   EvIntegratePlugins ≠ EvIntegratePlugins).
  { intros Hkey Hdots. destruct Hname as [->|[[location Hsome]|Hne]].
    - destruct executors_celery_kubernetes; congruence.
    - congruence.
    - done. }
  split.
  - destruct (confined_load_executor (λ ev, ev ≠ EvIntegratePlugins) name)
      with (s := s) as [Hcalls _]; [done..|auto|].
    rewrite Forall_forall in Hcalls. intros Hin. by apply (Hcalls _ Hin).
  - destruct (confined_import_executor_cls (λ ev, ev ≠ EvIntegratePlugins) name)
      with (s := s) as [Hcalls _]; [done..|].
    rewrite Forall_forall in Hcalls. intros Hin. by apply (Hcalls _ Hin).
Qed.

(** ** The default executor *)

Lemma count_events_app (p : event → bool) (tr tr' : list event) :
  count_events p (tr ++ tr') = count_events p tr + count_events p tr'.
Proof. induction tr as [|ev tr IH]; simpl; [done|]. rewrite IH. lia. Qed.

Lemma count_events_none (p : event → bool) (tr : list event) :
  Forall (λ ev, p ev = false) tr → count_events p tr = 0.
Proof. induction 1 as [|ev tr Hev _ IH]; simpl; [done|]. by rewrite Hev, IH. Qed.

Lemma load_executor_keeps_cache (name : string) (s : state) :
  count_events (is_conf_get "core" "EXECUTOR") (calls (load_executor name s)) = 0
  ∧ _default_executor (st (load_executor name s)) = _default_executor s.
Proof.
  destruct (confined_load_executor
              (λ ev, is_conf_get "core" "EXECUTOR" ev = false) name)
    with (s := s) as [Hcalls Hcache]; [done..|].
  split; [by apply count_events_none|done].
Qed.

(** The path [get_default_executor] takes when the cache is empty. *)
Lemma get_default_executor_uncached (s : state) :
  _default_executor s = None →
  get_default_executor s =
    (executor_name ← conf_get "core" "EXECUTOR";
     executor ← load_executor executor_name;
     set_default executor;;
     mret executor) s.
Proof.
  intros Hcache. unfold get_default_executor.
  unfold mbind, M_bind, bind at 1, get_default. simpl. rewrite Hcache.
  apply after_nil.
Qed.

(** C3, amended. When a call of [get_default_executor] returns an object
    that is not [None], the next call (the cache not having been reset in
    between) returns the same object, makes no call at all and leaves the
    state as it is. If the cache was empty before the first call,
    [conf.get('core', 'EXECUTOR')] is called exactly once over the two
    calls. *)
Theorem get_default_executor_cached (s : state) (executor : Obj) :
  res (get_default_executor s) = Ok executor →
  is_None executor = false →
  let s1 := st (get_default_executor s) in
  get_default_executor s1 = mkOutcome (Ok executor) s1 []
  ∧ (_default_executor s = None →
     count_events (is_conf_get "core" "EXECUTOR")
       (calls (get_default_executor s) ++ calls (get_default_executor s1)) = 1).
Proof.
  destruct (_default_executor s) as [cached|] eqn:Hcache.
  - unfold get_default_executor. unfold_loader. rewrite Hcache. simpl.
    intros [= ->] _. rewrite Hcache. simpl. by destruct s.
  - rewrite (get_default_executor_uncached _ Hcache).
    intros Hres Hobject s1. revert Hres. subst s1. unfold_loader.
    ask_collaborator; [|done].
    match goal with |- context [load_executor ?n ?s0] =>
      destruct (load_executor_keeps_cache n s0) as [Hcount _];
      destruct (load_executor n s0) as [[loaded|e] s2 tr] eqn:Hload
    end; simpl in *; [|done].
    intros [= ->]. rewrite Hobject.
    unfold get_default_executor. unfold_loader.
    split; [done|]. intros _. by rewrite !app_nil_r, Hcount.
Qed.

(** C10. When the cache is empty and [get_default_executor] raises, the
    cache is still empty afterwards: the next call takes the uncached path
    again, so it reads the configuration and resolves the name anew, and
    [conf.get('core', 'EXECUTOR')] has then been called twice. *)
Theorem get_default_executor_failure (s : state) (e : exn) :
  _default_executor s = None →
  res (get_default_executor s) = Raise e →
  let s1 := st (get_default_executor s) in
  _default_executor s1 = None
  ∧ get_default_executor s1 =
      (executor_name ← conf_get "core" "EXECUTOR";
       executor ← load_executor executor_name;
       set_default executor;;
       mret executor) s1
  ∧ count_events (is_conf_get "core" "EXECUTOR")
      (calls (get_default_executor s) ++ calls (get_default_executor s1)) = 2.
Proof.
  intros Hcache Hres s1.
  assert (Hcount : ∀ s0, _default_executor s0 = None →
            (∀ e0, res (get_default_executor s0) = Raise e0 →
                   _default_executor (st (get_default_executor s0)) = None)
            ∧ count_events (is_conf_get "core" "EXECUTOR")
                (calls (get_default_executor s0)) = 1).
  { intros s0 Hc. rewrite (get_default_executor_uncached _ Hc).
    unfold_loader. ask_collaborator; [|done].
    match goal with |- context [load_executor ?n ?s'] =>
      destruct (load_executor_keeps_cache n s') as [Hcount Hkeep];
      destruct (load_executor n s') as [[loaded|e0] s2 tr] eqn:Hload
    end; simpl in *.
    - split; [done|]. by rewrite ?app_nil_r, Hcount.
    - split; [|by rewrite Hcount]. intros _ _. by rewrite Hkeep. }
  destruct (Hcount s Hcache) as [Hempty Hone].
  specialize (Hempty e Hres). fold s1 in Hempty.
  split; [done|]. split; [by apply get_default_executor_uncached|].
  rewrite count_events_app, Hone.
  by destruct (Hcount s1 Hempty) as [_ ->].
Qed.

(** * Further properties *)

(** ** What [load_executor] does around the resolution *)

Lemma load_executor_run (name : string) (s : state) :
  name ≠ CELERY_KUBERNETES_EXECUTOR →
  load_executor name s =
    match res (import_executor_cls name s) with
    | Ok imported =>
        after
          (calls (import_executor_cls name s)
           ++ [EvLog DEBUG "Loading executor %s from %s"
                 [name; ConnectorSource_value imported.2];
               EvLog INFO "Loaded executor: %s" [name]])
          (call imported.1 [] (st (import_executor_cls name s)))
    | Raise e =>
        if is_ImportError e then
          mkOutcome (Raise (AirflowConfigException (load_error_message name)))
            (st (import_executor_cls name s))
            (calls (import_executor_cls name s) ++ [EvLog ERROR (exn_str e) []])
        else
          mkOutcome (Raise e) (st (import_executor_cls name s))
            (calls (import_executor_cls name s))
    end.
Proof.
  intros Hne. rewrite (load_executor_generic _ _ Hne). unfold_loader.
  destruct (import_executor_cls name s) as [[imported|e] s1 tr]; simpl.
  - ask_collaborator; by rewrite <- !app_assoc.
  - by destruct (is_ImportError e).
Qed.

(** X1. Whatever strategy resolved a name other than
    [CELERY_KUBERNETES_EXECUTOR], [load_executor] logs the source at debug
    level, logs the name at info level and then calls the resolved class
    once, with no argument; its result is the result of that call. *)
Theorem load_executor_instantiates (name : string) (s : state)
    (cls : PyType) (source : ConnectorSource) :
  name ≠ CELERY_KUBERNETES_EXECUTOR →
  res (import_executor_cls name s) = Ok (cls, source) →
  let s1 := st (import_executor_cls name s) in
  res (load_executor name s) = (call_ext cls [] (world s1)).1
  ∧ calls (load_executor name s) =
      (calls (import_executor_cls name s)
       ++ [EvLog DEBUG "Loading executor %s from %s"
             [name; ConnectorSource_value source];
           EvLog INFO "Loaded executor: %s" [name];
           EvCall cls []])%list.
Proof.
  intros Hne Himp s1. rewrite (load_executor_run _ _ Hne), Himp. subst s1.
  unfold_loader. ask_collaborator; by rewrite <- !app_assoc.
Qed.

(** X2. The call of the resolved class is outside the [try]: what the
    constructor raises reaches the caller as it is, an [ImportError]
    included. *)
Theorem load_executor_constructor_error (name : string) (s : state)
    (cls : PyType) (source : ConnectorSource) (e : exn) (w : World) :
  name ≠ CELERY_KUBERNETES_EXECUTOR →
  res (import_executor_cls name s) = Ok (cls, source) →
  call_ext cls [] (world (st (import_executor_cls name s))) = (Raise e, w) →
  res (load_executor name s) = Raise e.
Proof.
  intros Hne Himp Hcall. rewrite (load_executor_run _ _ Hne), Himp.
  unfold_loader. by rewrite Hcall.
Qed.

(** X3. When the resolution of a name other than
    [CELERY_KUBERNETES_EXECUTOR] ends in an [ImportError], [load_executor]
    logs the message of that error at error level as its last action and
    calls no class. *)
Theorem load_executor_import_error_logged (name : string) (s : state)
    (msg : string) :
  name ≠ CELERY_KUBERNETES_EXECUTOR →
  res (import_executor_cls name s) = Raise (ImportError msg) →
  calls (load_executor name s) =
    (calls (import_executor_cls name s) ++ [EvLog ERROR msg []])%list
  ∧ count_events is_call (calls (load_executor name s)) = 0.
Proof.
  intros Hne Himp. rewrite (load_executor_run _ _ Hne), Himp. simpl.
  split; [done|]. rewrite count_events_app. simpl.
  destruct (confined_import_executor_cls (λ ev, is_call ev = false) name)
    with (s := s) as [Hcalls _]; [done..|].
  by rewrite (count_events_none _ _ Hcalls).
Qed.

(** X4. An exception of the resolution that is not an [ImportError] is
    not caught: [load_executor] raises it as it is and logs nothing. *)
Theorem load_executor_other_error (name : string) (s : state) (e : exn) :
  name ≠ CELERY_KUBERNETES_EXECUTOR →
  res (import_executor_cls name s) = Raise e →
  is_ImportError e = false →
  res (load_executor name s) = Raise e
  ∧ calls (load_executor name s) = calls (import_executor_cls name s).
Proof.
  intros Hne Himp Hclass.
  by rewrite (load_executor_run _ _ Hne), Himp, Hclass.
Qed.

(** ** More on the strategies of [import_executor_cls] *)

(** X5. For a name that is not a registry key and has exactly one ["."],
    when plugin integration succeeds and the name can be loaded under
    [airflow.executors.], that class is returned tagged [PLUGIN]; the name
    itself is not loaded, whether or not it could be. *)
Theorem import_executor_cls_plugin_found (name : string) (s : state)
    (w1 w2 : World) (cls : PyType) :
  executors !! name = None →
  count_char "." name = 1 →
  integrate_executor_plugins_ext (world s) = (Ok (), w1) →
  import_string_ext ("airflow.executors." +:+ name) w1 = (Ok cls, w2) →
  import_executor_cls name s =
    mkOutcome (Ok (cls, PLUGIN)) (mkState w2 (_default_executor s))
      [plugin_debug_line name; EvIntegratePlugins;
       EvImportString ("airflow.executors." +:+ name)].
Proof.
  intros Hkey Hdots Hint Himp.
  rewrite (import_executor_cls_plugin_shaped _ _ Hkey Hdots).
  unfold plugin_convention. unfold_loader. rewrite Hint. simpl.
  by rewrite Himp.
Qed.

(** X6. For such a name, an exception of the plugin convention that is
    neither an [ImportError] nor an [AttributeError] ends the resolution:
    [import_executor_cls] raises it after the calls of the plugin attempt
    alone, and [load_executor] (the name not being
    [CELERY_KUBERNETES_EXECUTOR]) raises it unchanged. *)
Theorem import_executor_cls_plugin_error_propagates (name : string)
    (s : state) (e : exn) :
  name ≠ CELERY_KUBERNETES_EXECUTOR →
  executors !! name = None →
  count_char "." name = 1 →
  res (plugin_convention name s) = Raise e →
  is_ImportError_or_AttributeError e = false →
  res (import_executor_cls name s) = Raise e
  ∧ calls (import_executor_cls name s) =
      plugin_debug_line name :: calls (plugin_convention name s)
  ∧ res (load_executor name s) = Raise e.
Proof.
  intros Hne Hkey Hdots Hplugin Hclass.
  assert (Himp : res (import_executor_cls name s) = Raise e
                 ∧ calls (import_executor_cls name s) =
                     plugin_debug_line name :: calls (plugin_convention name s)).
  { rewrite (import_executor_cls_plugin_shaped _ _ Hkey Hdots).
    rewrite Hplugin, Hclass.
    destruct (plugin_convention name s) as [r s1 tr]. simpl in *. by subst r. }
  destruct Himp as [Hres Hcalls]. split; [done|]. split; [done|].
  rewrite (load_executor_run _ _ Hne), Hres.
  by destruct e.
Qed.

(** X7. A registry key is resolved through the registry and nothing else:
    when the load of the registered location raises, [import_executor_cls]
    raises that exception after this one call, without trying the name as
    a plugin or as a path. *)
Theorem import_executor_cls_registry_error (name location : string)
    (s : state) (e : exn) (w : World) :
  executors !! name = Some location →
  import_string_ext location (world s) = (Raise e, w) →
  import_executor_cls name s =
    mkOutcome (Raise e) (mkState w (_default_executor s))
      [EvImportString location].
Proof.
  intros Hkey Himp.
  by rewrite (import_executor_cls_registry _ _ _ Hkey), Himp.
Qed.

(** X8. [import_executor_cls] only resolves: for every name it calls no
    class, does not read the configuration and leaves
    [_default_executor] as it is. *)
Theorem import_executor_cls_only_resolves (name : string) (s : state) :
  count_events is_call (calls (import_executor_cls name s)) = 0
  ∧ count_events is_any_conf_get (calls (import_executor_cls name s)) = 0
  ∧ _default_executor (st (import_executor_cls name s)) = _default_executor s.
Proof.
  destruct (confined_import_executor_cls
              (λ ev, is_call ev = false ∧ is_any_conf_get ev = false) name)
    with (s := s) as [Hcalls Hcache]; [done..|].
  split; [|split; [|done]]; apply count_events_none;
    eapply Forall_impl; try exact Hcalls; by intros ev [].
Qed.

(** X9. [import_executor_cls] loads at most twice and integrates plugins
    at most once; for a registry key or a name without exactly one ["."]
    it loads exactly once. *)
Theorem import_executor_cls_load_count (name : string) (s : state) :
  (count_events is_import_string (calls (import_executor_cls name s)) ≤ 2)%nat
  ∧ (count_events is_integrate (calls (import_executor_cls name s)) ≤ 1)%nat
  ∧ (is_Some (executors !! name) ∨ count_char "." name ≠ 1 →
     count_events is_import_string (calls (import_executor_cls name s)) = 1).
Proof.
  destruct (executors !! name) as [location|] eqn:Hkey.
  - rewrite (import_executor_cls_registry _ _ _ Hkey). simpl. auto with lia.
  - destruct (decide (count_char "." name = 1)) as [Hdots|Hdots].
    + rewrite (import_executor_cls_plugin_shaped _ _ Hkey Hdots).
      assert (Hplugin :
        (count_events is_import_string (calls (plugin_convention name s)) ≤ 1)%nat
        ∧ count_events is_integrate (calls (plugin_convention name s)) = 1).
      { unfold plugin_convention. unfold_loader.
        destruct (integrate_executor_plugins_ext (world s)) as [[[]|e0] w0];
          simpl; [ask_collaborator|]; simpl; lia. }
      destruct Hplugin as [Himports Hint].
      destruct (plugin_convention name s) as [[found|e] s1 tr]; simpl in *.
      * split; [lia|]. split; [lia|]. intros [[? [=]]|?]; done.
      * destruct (is_ImportError_or_AttributeError e); simpl.
        -- rewrite literal_path_run. simpl. rewrite !count_events_app. simpl.
           split; [lia|]. split; [lia|]. intros [[? [=]]|?]; done.
        -- split; [lia|]. split; [lia|]. intros [[? [=]]|?]; done.
    + rewrite (import_executor_cls_not_plugin_shaped _ _ Hkey Hdots).
      rewrite literal_path_run. simpl. auto with lia.
Qed.

(** X10. [load_executor] does not read the configuration and does not
    touch the cache, for any name: only [get_default_executor] does. *)
Theorem load_executor_leaves_configuration_and_cache (name : string)
    (s : state) :
  count_events is_any_conf_get (calls (load_executor name s)) = 0
  ∧ _default_executor (st (load_executor name s)) = _default_executor s.
Proof.
  destruct (confined_load_executor (λ ev, is_any_conf_get ev = false) name)
    with (s := s) as [Hcalls Hcache]; [done..|].
  split; [by apply count_events_none|done].
Qed.

(** ** More on the default executor *)

Lemma get_default_executor_reads_once (s : state) :
  _default_executor s = None →
  count_events (is_conf_get "core" "EXECUTOR")
    (calls (get_default_executor s)) = 1.
Proof.
  intros Hcache. rewrite (get_default_executor_uncached _ Hcache).
  unfold_loader. ask_collaborator; [|done].
  match goal with |- context [load_executor ?n ?s0] =>
    destruct (load_executor_keeps_cache n s0) as [Hcount _];
    destruct (load_executor n s0) as [[loaded|e] s2 tr]
  end; simpl in *; by rewrite ?app_nil_r, Hcount.
Qed.

(** X11. [None] is never cached: when the cache is empty and the call of
    the resolved class returns [None], [get_default_executor] returns
    [None] and the cache is still empty, so the next call takes the
    uncached path again and [conf.get('core', 'EXECUTOR')] has then been
    called twice. *)
Theorem get_default_executor_none_not_cached (s : state) (returned : Obj) :
  _default_executor s = None →
  res (get_default_executor s) = Ok returned →
  is_None returned = true →
  let s1 := st (get_default_executor s) in
  _default_executor s1 = None
  ∧ get_default_executor s1 =
      (executor_name ← conf_get "core" "EXECUTOR";
       executor ← load_executor executor_name;
       set_default executor;;
       mret executor) s1
  ∧ count_events (is_conf_get "core" "EXECUTOR")
      (calls (get_default_executor s) ++ calls (get_default_executor s1)) = 2.
Proof.
  intros Hcache Hres Hnone s1.
  assert (Hempty : _default_executor s1 = None).
  { subst s1. revert Hres. rewrite (get_default_executor_uncached _ Hcache).
    unfold_loader. ask_collaborator; [|done].
    match goal with |- context [load_executor ?n ?s0] =>
      destruct (load_executor n s0) as [[loaded|e] s2 tr]
    end; simpl; [|done].
    intros [= ->]. by rewrite Hnone. }
  split; [done|]. split; [by apply get_default_executor_uncached|].
  rewrite count_events_app.
  by rewrite (get_default_executor_reads_once _ Hcache),
    (get_default_executor_reads_once _ Hempty).
Qed.

(** X12. When the cache is empty and the configured name (other than
    [CELERY_KUBERNETES_EXECUTOR]) cannot be resolved because of an
    [ImportError], [get_default_executor] raises the
    [AirflowConfigException] whose message contains the configured name,
    and the cache stays empty. *)
Theorem get_default_executor_misconfigured (s : state) (name : string)
    (w : World) (msg : string) :
  _default_executor s = None →
  conf_get_ext "core" "EXECUTOR" (world s) = (Ok name, w) →
  name ≠ CELERY_KUBERNETES_EXECUTOR →
  res (import_executor_cls name (mkState w (_default_executor s))) =
    Raise (ImportError msg) →
  res (get_default_executor s) =
    Raise (AirflowConfigException (load_error_message name))
  ∧ contains name (load_error_message name)
  ∧ _default_executor (st (get_default_executor s)) = None.
Proof.
  intros Hcache Hconf Hne Himp.
  rewrite (get_default_executor_uncached _ Hcache). unfold_loader.
  rewrite Hconf. simpl. rewrite (load_executor_run _ _ Hne), Himp. simpl.
  split; [done|]. split; [apply load_error_message_contains|].
  destruct (confined_import_executor_cls (λ _, True) name)
    with (s := mkState w (_default_executor s)) as [_ Hkeep]; [done..|].
  by rewrite Hkeep.
Qed.

(** X13. When the cache is empty and [conf.get('core', 'EXECUTOR')]
    raises, [get_default_executor] raises the same exception; the
    configuration read is its only call and the cache stays empty. *)
Theorem get_default_executor_conf_error (s : state) (e : exn) (w : World) :
  _default_executor s = None →
  conf_get_ext "core" "EXECUTOR" (world s) = (Raise e, w) →
  get_default_executor s =
    mkOutcome (Raise e) (mkState w None) [EvConfGet "core" "EXECUTOR"].
Proof.
  intros Hcache Hconf.
  rewrite (get_default_executor_uncached _ Hcache). unfold_loader.
  by rewrite Hconf, Hcache.
Qed.

(** ** More on the composite executor *)

(** Splits on the answer of the earliest collaborator call not yet
    decided: the one whose world is already known. *)
Ltac known_world w :=
  first [ is_var w | match w with world ?s => is_var s end ].

Ltac ask_in_order :=
  match goal with
  | |- context [import_string_ext ?p ?w] =>
      known_world w;
      let E := fresh "Eimp" in
      destruct (import_string_ext p w) as [[?cls|?err] ?wld] eqn:E; simpl
  | |- context [call_ext ?c ?a ?w] =>
      known_world w;
      let E := fresh "Ecall" in
      destruct (call_ext c a w) as [[?obj|?err] ?wld] eqn:E; simpl
  end.

(** X14. Whatever [load_executor] raises for
    [CELERY_KUBERNETES_EXECUTOR] was raised by the last call it made, a
    load or a call of a class: the registry lookups of the builder never
    fail and the builder raises nothing of its own. *)
Theorem load_executor_composite_error_origin (s : state) (e : exn) :
  res (load_executor CELERY_KUBERNETES_EXECUTOR s) = Raise e →
  ∃ w w',
    (∃ location,
        last (calls (load_executor CELERY_KUBERNETES_EXECUTOR s)) =
          Some (EvImportString location)
        ∧ import_string_ext location w = (Raise e, w'))
    ∨ (∃ cls args,
        last (calls (load_executor CELERY_KUBERNETES_EXECUTOR s)) =
          Some (EvCall cls args)
        ∧ call_ext cls args w = (Raise e, w')).
Proof.
  unfold load_executor. rewrite String.eqb_refl.
  unfold __load_celery_kubernetes_executor, executors_getitem.
  destruct executors_celery as [lc Hc].
  destruct executors_kubernetes as [lk Hk].
  destruct executors_celery_kubernetes as [lck Hck].
  rewrite Hc, Hk, Hck. unfold_loader.
  repeat (ask_in_order;
          [|intros [= ->]; eexists _, _;
            first [ left; eexists; split; [reflexivity|eassumption]
                  | right; eexists _, _; split; [reflexivity|eassumption] ]]).
  done.
Qed.

(** X15. The celery executor is built before the kubernetes class is even
    loaded: when the celery class loads and its constructor raises,
    [load_executor] raises that exception after these two calls. *)
Theorem load_executor_composite_celery_constructor_error (s : state)
    (celery_location : string) (celery_cls : PyType) (w1 w2 : World)
    (e : exn) :
  executors !! CELERY_EXECUTOR = Some celery_location →
  import_string_ext celery_location (world s) = (Ok celery_cls, w1) →
  call_ext celery_cls [] w1 = (Raise e, w2) →
  load_executor CELERY_KUBERNETES_EXECUTOR s =
    mkOutcome (Raise e) (mkState w2 (_default_executor s))
      [EvImportString celery_location; EvCall celery_cls []].
Proof.
  intros Hc Himp Hcall. unfold load_executor. rewrite String.eqb_refl.
  unfold __load_celery_kubernetes_executor, executors_getitem.
  rewrite Hc. unfold_loader. rewrite Himp. simpl. by rewrite Hcall.
Qed.

(** ** More on the registry *)

(** X17. Every member of [UNPICKLEABLE_EXECUTORS] is a key of the
    registry; when the seven names are pairwise distinct, none of them is
    the composite name, so [load_executor] resolves it through the
    registry. *)
Theorem unpickleable_executors_registered (name : string) :
  name ∈ UNPICKLEABLE_EXECUTORS →
  is_Some (executors !! name)
  ∧ (NoDup registry_keys → name ≠ CELERY_KUBERNETES_EXECUTOR).
Proof.
  unfold UNPICKLEABLE_EXECUTORS. intros Hin.
  rewrite !elem_of_cons, elem_of_nil in Hin. split.
  - apply executors_is_Some. unfold registry_keys.
    rewrite !elem_of_cons. intuition.
  - unfold registry_keys. intros Hnodup ->.
    rewrite !NoDup_cons, !not_elem_of_cons in Hnodup.
    intuition congruence.
Qed.

(** X18. [ConnectorSource] passes its [@unique] check: two members with
    the same value are the same member. *)
Theorem ConnectorSource_unique (a b : ConnectorSource) :
  ConnectorSource_value a = ConnectorSource_value b → a = b.
Proof. by destruct a, b. Qed.

End LoaderFacts.

(** * The loader on the sample platform *)

Section Samples.
Import Sample.

#[local] Existing Instance constants.

Ltac not_among_calls :=
  let H := fresh in
  intros H; vm_compute in H;
  repeat (apply elem_of_cons in H as [H|H]; [discriminate H|]);
  by apply elem_of_nil in H.

(** C6 on [LocalExecutor]: resolved from the registry, called with no
    argument. *)
Lemma registry_key_resolves_core_witness :
  executors !! "LocalExecutor" =
    Some "airflow.executors.local_executor.LocalExecutor"
  ∧ res (import_executor_cls (P := plain) "LocalExecutor" plain_boot) =
      Ok ("airflow.executors.local_executor.LocalExecutor", CORE)
  ∧ calls (load_executor (P := plain) "LocalExecutor" plain_boot) =
      [EvImportString "airflow.executors.local_executor.LocalExecutor";
       EvLog DEBUG "Loading executor %s from %s" ["LocalExecutor"; "core"];
       EvLog INFO "Loaded executor: %s" ["LocalExecutor"];
       EvCall (P := plain) "airflow.executors.local_executor.LocalExecutor" []].
Proof.
  assert (Hkey : executors !! "LocalExecutor" =
                 Some "airflow.executors.local_executor.LocalExecutor")
    by (vm_compute; reflexivity).
  destruct (registry_key_resolves_core (P := plain)
              "LocalExecutor" _ plain_boot Hkey) as [Hcls Hload].
  split; [exact Hkey|]. split; [exact Hcls|].
  refine (proj2 (Hload _ _ (mkInterpreter core_paths 0) _)).
  - vm_compute. discriminate.
  - vm_compute. reflexivity.
Defined.

(** C6 as first stated fails on the registry key [CeleryKubernetesExecutor]:
    [load_executor] never calls the composite class without arguments, it
    calls it with the celery and the kubernetes instance. *)
Lemma composite_key_called_with_two_arguments :
  is_Some (executors !! "CeleryKubernetesExecutor")
  ∧ res (import_executor_cls (P := plain) "CeleryKubernetesExecutor" plain_boot) =
      Ok ("airflow.executors.celery_kubernetes_executor.CeleryKubernetesExecutor",
          CORE)
  ∧ (EvCall (P := plain)
       "airflow.executors.celery_kubernetes_executor.CeleryKubernetesExecutor" []
     ∉ calls (load_executor (P := plain) "CeleryKubernetesExecutor" plain_boot))
  ∧ (EvCall (P := plain)
       "airflow.executors.celery_kubernetes_executor.CeleryKubernetesExecutor"
       [Instance 0 "airflow.executors.celery_executor.CeleryExecutor" [];
        Instance 1 "airflow.executors.kubernetes_executor.KubernetesExecutor" []]
     ∈ calls (load_executor (P := plain) "CeleryKubernetesExecutor" plain_boot)).
Proof.
  split; [by vm_compute; eexists|]. split; [by vm_compute|].
  split; [not_among_calls|].
  vm_compute. do 5 apply list_elem_of_further. apply list_elem_of_here.
Qed.

(** C7 on a loadable path with three separators. *)
Lemma import_executor_cls_custom_path_witness :
  executors !! "my.custom.path.Executor" = None
  ∧ 1 < count_char "." "my.custom.path.Executor"
  ∧ res (import_executor_cls (P := plain) "my.custom.path.Executor" custom_boot) =
      Ok ("my.custom.path.Executor", CUSTOM_PATH)
  ∧ calls (import_executor_cls (P := plain) "my.custom.path.Executor" custom_boot) =
      [EvImportString "my.custom.path.Executor"].
Proof.
  assert (Hkey : executors !! "my.custom.path.Executor" = None)
    by (vm_compute; reflexivity).
  assert (Hdots : 1 < count_char "." "my.custom.path.Executor")
    by (vm_compute; lia).
  split; [exact Hkey|]. split; [exact Hdots|].
  apply (import_executor_cls_custom_path (P := plain)
           "my.custom.path.Executor" custom_boot _ (world custom_boot) Hkey Hdots).
  vm_compute. reflexivity.
Defined.


(** C5 as first stated fails when the celery class cannot be loaded: the
    caller of [load_executor] gets the [ImportError] itself, not an
    [AirflowConfigException]. *)
Lemma composite_load_error_not_translated :
  composite_load_fails (P := plain) no_celery_boot
    (ImportError
       "No module named airflow.executors.celery_executor.CeleryExecutor")
  ∧ res (load_executor (P := plain) "CeleryKubernetesExecutor" no_celery_boot) =
      Raise (ImportError
               "No module named airflow.executors.celery_executor.CeleryExecutor")
  ∧ ∀ msg,
      res (load_executor (P := plain) "CeleryKubernetesExecutor" no_celery_boot)
      ≠ Raise (AirflowConfigException msg).
Proof.
  split; [|split].
  - eapply celery_load_fails; vm_compute; reflexivity.
  - vm_compute. reflexivity.
  - intros msg. vm_compute. discriminate.
Qed.

(** C5, amended, on the same platform. *)
Lemma load_executor_composite_load_error_witness :
  composite_load_fails (P := plain) no_celery_boot
    (ImportError
       "No module named airflow.executors.celery_executor.CeleryExecutor")
  ∧ res (load_executor (P := plain) CELERY_KUBERNETES_EXECUTOR no_celery_boot) =
      Raise (ImportError
               "No module named airflow.executors.celery_executor.CeleryExecutor").
Proof.
  assert (Hfails : composite_load_fails (P := plain) no_celery_boot
            (ImportError
               "No module named airflow.executors.celery_executor.CeleryExecutor"))
    by (eapply celery_load_fails; vm_compute; reflexivity).
  split; [exact Hfails|].
  exact (load_executor_composite_load_error (P := plain) no_celery_boot _ Hfails).
Defined.

(** C1, amended, on [mymodule.MyBackend]: no plugin provides it, the path
    itself loads. *)
Lemma import_executor_cls_plugin_fallthrough_witness :
  "mymodule.MyBackend" ≠ CELERY_KUBERNETES_EXECUTOR
  ∧ executors !! "mymodule.MyBackend" = None
  ∧ count_char "." "mymodule.MyBackend" = 1
  ∧ res (plugin_convention (P := plain) "mymodule.MyBackend" custom_boot) =
      Raise (ImportError "No module named airflow.executors.mymodule.MyBackend")
  ∧ res (import_executor_cls (P := plain) "mymodule.MyBackend" custom_boot) =
      Ok ("mymodule.MyBackend", CUSTOM_PATH)
  ∧ calls (import_executor_cls (P := plain) "mymodule.MyBackend" custom_boot) =
      [plugin_debug_line "mymodule.MyBackend";
       EvIntegratePlugins;
       EvImportString "airflow.executors.mymodule.MyBackend";
       EvImportString "mymodule.MyBackend"]
  ∧ res (load_executor (P := plain) "mymodule.MyBackend" custom_boot) =
      Ok (Instance 0 "mymodule.MyBackend" []).
Proof.
  assert (Hne : "mymodule.MyBackend" ≠ CELERY_KUBERNETES_EXECUTOR)
    by (vm_compute; discriminate).
  assert (Hkey : executors !! "mymodule.MyBackend" = None)
    by (vm_compute; reflexivity).
  assert (Hdots : count_char "." "mymodule.MyBackend" = 1)
    by (vm_compute; reflexivity).
  assert (Hplugin :
      res (plugin_convention (P := plain) "mymodule.MyBackend" custom_boot) =
      Raise (ImportError "No module named airflow.executors.mymodule.MyBackend"))
    by (vm_compute; reflexivity).
  split; [exact Hne|]. split; [exact Hkey|]. split; [exact Hdots|].
  split; [exact Hplugin|].
  exact (import_executor_cls_plugin_fallthrough (P := plain)
           "mymodule.MyBackend" custom_boot _ Hne Hkey Hdots Hplugin eq_refl).
Defined.

(** C1 as first stated fails when plugin integration raises an exception
    that [suppress] does not list: the exception leaves
    [import_executor_cls] and [load_executor], and the path, which would
    load, is never tried. *)
Lemma plugin_error_not_suppressed :
  "mymodule.MyBackend" ≠ CELERY_KUBERNETES_EXECUTOR
  ∧ executors !! "mymodule.MyBackend" = None
  ∧ count_char "." "mymodule.MyBackend" = 1
  ∧ res (plugin_convention (P := broken_plugins) "mymodule.MyBackend"
           broken_plugins_boot) = Raise plugins_broken
  ∧ res (literal_path (P := broken_plugins) "mymodule.MyBackend"
           (st (plugin_convention "mymodule.MyBackend" broken_plugins_boot))) =
      Ok ("mymodule.MyBackend", CUSTOM_PATH)
  ∧ res (import_executor_cls (P := broken_plugins) "mymodule.MyBackend"
           broken_plugins_boot) = Raise plugins_broken
  ∧ (EvImportString (P := broken_plugins) "mymodule.MyBackend"
     ∉ calls (import_executor_cls (P := broken_plugins) "mymodule.MyBackend"
                broken_plugins_boot))
  ∧ res (load_executor (P := broken_plugins) "mymodule.MyBackend"
           broken_plugins_boot) = Raise plugins_broken.
Proof.
  repeat split; try (vm_compute; reflexivity).
  - vm_compute. discriminate.
  - not_among_calls.
Qed.

(** C2 on a path that does not exist. *)
Lemma load_executor_import_error_witness :
  "totally.bogus.path.NoSuchType" ≠ CELERY_KUBERNETES_EXECUTOR
  ∧ res (import_executor_cls (P := plain) "totally.bogus.path.NoSuchType"
           plain_boot) =
      Raise (ImportError "No module named totally.bogus.path.NoSuchType")
  ∧ res (load_executor (P := plain) "totally.bogus.path.NoSuchType" plain_boot) =
      Raise (AirflowConfigException
               (load_error_message "totally.bogus.path.NoSuchType"))
  ∧ contains "totally.bogus.path.NoSuchType"
      (load_error_message "totally.bogus.path.NoSuchType").
Proof.
  assert (Hne : "totally.bogus.path.NoSuchType" ≠ CELERY_KUBERNETES_EXECUTOR)
    by (vm_compute; discriminate).
  assert (Himp :
      res (import_executor_cls (P := plain) "totally.bogus.path.NoSuchType"
             plain_boot) =
      Raise (ImportError "No module named totally.bogus.path.NoSuchType"))
    by (vm_compute; reflexivity).
  split; [exact Hne|]. split; [exact Himp|].
  destruct (load_executor_import_error (P := plain)
              "totally.bogus.path.NoSuchType" plain_boot _ Hne Himp)
    as (Hres & Hmsg & _).
  split; [exact Hres|exact Hmsg].
Defined.

(** C8 on the registry key [LocalExecutor]. *)
Lemma integrate_plugins_not_called_witness :
  is_Some (executors !! "LocalExecutor")
  ∧ (EvIntegratePlugins
     ∉ calls (load_executor (P := plain) "LocalExecutor" plain_boot))
  ∧ (EvIntegratePlugins
     ∉ calls (import_executor_cls (P := plain) "LocalExecutor" plain_boot)).
Proof.
  assert (Hkey : is_Some (executors !! "LocalExecutor"))
    by (vm_compute; eexists; reflexivity).
  split; [exact Hkey|].
  exact (integrate_plugins_not_called (P := plain) "LocalExecutor" plain_boot
           (or_intror (or_introl Hkey))).
Defined.

(** C3, amended, with [LocalExecutor] configured. *)
Lemma get_default_executor_cached_witness :
  res (get_default_executor (P := plain) plain_boot) =
    Ok (Instance 0 "airflow.executors.local_executor.LocalExecutor" [])
  ∧ is_None (Platform := plain)
      (Instance 0 "airflow.executors.local_executor.LocalExecutor" []) = false
  ∧ res (get_default_executor (P := plain)
           (st (get_default_executor (P := plain) plain_boot))) =
      Ok (Instance 0 "airflow.executors.local_executor.LocalExecutor" [])
  ∧ count_events (is_conf_get "core" "EXECUTOR")
      (calls (get_default_executor (P := plain) plain_boot)
       ++ calls (get_default_executor (P := plain)
                   (st (get_default_executor (P := plain) plain_boot)))) = 1.
Proof.
  assert (Hres : res (get_default_executor (P := plain) plain_boot) =
                 Ok (Instance 0 "airflow.executors.local_executor.LocalExecutor" []))
    by (vm_compute; reflexivity).
  destruct (get_default_executor_cached (P := plain) plain_boot _ Hres eq_refl)
    as [Hsecond Hcount].
  split; [exact Hres|]. split; [reflexivity|]. split.
  - rewrite Hsecond. reflexivity.
  - apply Hcount. reflexivity.
Defined.

(** C3 as first stated fails when the configured path names a callable
    that returns [None]: the first call returns, nothing is cached, and the
    second call reads the configuration, resolves and calls again. *)
Lemma none_result_not_cached :
  _default_executor returns_none_boot = None
  ∧ res (get_default_executor (P := returns_none) returns_none_boot) = Ok None
  ∧ _default_executor
      (st (get_default_executor (P := returns_none) returns_none_boot)) = None
  ∧ get_default_executor (P := returns_none)
      (st (get_default_executor (P := returns_none) returns_none_boot))
    ≠ mkOutcome (P := returns_none) (Ok None)
        (st (get_default_executor (P := returns_none) returns_none_boot)) []
  ∧ count_events is_call
      (calls (get_default_executor (P := returns_none)
                (st (get_default_executor (P := returns_none)
                       returns_none_boot)))) = 1
  ∧ count_events (is_conf_get "core" "EXECUTOR")
      (calls (get_default_executor (P := returns_none) returns_none_boot)
       ++ calls (get_default_executor (P := returns_none)
                   (st (get_default_executor (P := returns_none)
                          returns_none_boot)))) = 2.
Proof.
  repeat split; try (vm_compute; reflexivity).
  vm_compute. discriminate.
Qed.

(** C10 with a configured name that cannot be loaded. *)
Lemma get_default_executor_failure_witness :
  _default_executor misconfigured_boot = None
  ∧ res (get_default_executor (P := misconfigured) misconfigured_boot) =
      Raise (AirflowConfigException
               (load_error_message "totally.bogus.path.NoSuchType"))
  ∧ _default_executor
      (st (get_default_executor (P := misconfigured) misconfigured_boot)) = None
  ∧ count_events (is_conf_get "core" "EXECUTOR")
      (calls (get_default_executor (P := misconfigured) misconfigured_boot)
       ++ calls (get_default_executor (P := misconfigured)
                   (st (get_default_executor (P := misconfigured)
                          misconfigured_boot)))) = 2.
Proof.
  assert (Hres :
      res (get_default_executor (P := misconfigured) misconfigured_boot) =
      Raise (AirflowConfigException
               (load_error_message "totally.bogus.path.NoSuchType")))
    by (vm_compute; reflexivity).
  destruct (get_default_executor_failure (P := misconfigured)
              misconfigured_boot _ eq_refl Hres) as (Hempty & _ & Hcount).
  split; [reflexivity|]. split; [exact Hres|]. split; [exact Hempty|exact Hcount].
Defined.

(** X1 on a custom path. *)
Lemma load_executor_instantiates_witness :
  "my.custom.path.Executor" ≠ CELERY_KUBERNETES_EXECUTOR
  ∧ res (load_executor (P := plain) "my.custom.path.Executor" custom_boot) =
      Ok (Instance 0 "my.custom.path.Executor" [])
  ∧ calls (load_executor (P := plain) "my.custom.path.Executor" custom_boot) =
      [EvImportString "my.custom.path.Executor";
       EvLog DEBUG "Loading executor %s from %s"
         ["my.custom.path.Executor"; "custom path"];
       EvLog INFO "Loaded executor: %s" ["my.custom.path.Executor"];
       EvCall (P := plain) "my.custom.path.Executor" []].
Proof.
  assert (Hne : "my.custom.path.Executor" ≠ CELERY_KUBERNETES_EXECUTOR)
    by (vm_compute; discriminate).
  split; [exact Hne|].
  exact (load_executor_instantiates (P := plain) "my.custom.path.Executor"
           custom_boot "my.custom.path.Executor" CUSTOM_PATH Hne eq_refl).
Defined.

(** X2: the constructor of [LocalExecutor] raises an [ImportError]. *)
Lemma load_executor_constructor_error_witness :
  "LocalExecutor" ≠ CELERY_KUBERNETES_EXECUTOR
  ∧ res (load_executor
           (P := fragile "airflow.executors.local_executor.LocalExecutor"
                   (ImportError "No module named psutil"))
           "LocalExecutor"
           (fragile_boot "airflow.executors.local_executor.LocalExecutor"
              (ImportError "No module named psutil"))) =
      Raise (ImportError "No module named psutil").
Proof.
  assert (Hne : "LocalExecutor" ≠ CELERY_KUBERNETES_EXECUTOR)
    by (vm_compute; discriminate).
  split; [exact Hne|].
  exact (load_executor_constructor_error
           (P := fragile "airflow.executors.local_executor.LocalExecutor"
                   (ImportError "No module named psutil"))
           "LocalExecutor" (fragile_boot _ _)
           "airflow.executors.local_executor.LocalExecutor" CORE
           (ImportError "No module named psutil") (mkInterpreter core_paths 0)
           Hne eq_refl eq_refl).
Defined.

(** X3 on a path that does not exist. *)
Lemma load_executor_import_error_logged_witness :
  "totally.bogus.path.NoSuchType" ≠ CELERY_KUBERNETES_EXECUTOR
  ∧ calls (load_executor (P := plain) "totally.bogus.path.NoSuchType"
             plain_boot) =
      [EvImportString "totally.bogus.path.NoSuchType";
       EvLog ERROR "No module named totally.bogus.path.NoSuchType" []]
  ∧ count_events is_call
      (calls (load_executor (P := plain) "totally.bogus.path.NoSuchType"
                plain_boot)) = 0.
Proof.
  assert (Hne : "totally.bogus.path.NoSuchType" ≠ CELERY_KUBERNETES_EXECUTOR)
    by (vm_compute; discriminate).
  split; [exact Hne|].
  exact (load_executor_import_error_logged (P := plain)
           "totally.bogus.path.NoSuchType" plain_boot
           "No module named totally.bogus.path.NoSuchType" Hne eq_refl).
Defined.

(** X4: plugin integration raises an exception [load_executor] does not
    catch. *)
Lemma load_executor_other_error_witness :
  "mymodule.MyBackend" ≠ CELERY_KUBERNETES_EXECUTOR
  ∧ is_ImportError plugins_broken = false
  ∧ res (load_executor (P := broken_plugins) "mymodule.MyBackend"
           broken_plugins_boot) = Raise plugins_broken
  ∧ calls (load_executor (P := broken_plugins) "mymodule.MyBackend"
             broken_plugins_boot) =
      calls (import_executor_cls (P := broken_plugins) "mymodule.MyBackend"
               broken_plugins_boot).
Proof.
  assert (Hne : "mymodule.MyBackend" ≠ CELERY_KUBERNETES_EXECUTOR)
    by (vm_compute; discriminate).
  split; [exact Hne|]. split; [reflexivity|].
  exact (load_executor_other_error (P := broken_plugins) "mymodule.MyBackend"
           broken_plugins_boot plugins_broken Hne eq_refl eq_refl).
Defined.

(** X5: a plugin provides the executor, and the path would load too. *)
Lemma import_executor_cls_plugin_found_witness :
  executors !! "myplugin.MyExecutor" = None
  ∧ count_char "." "myplugin.MyExecutor" = 1
  ∧ res (literal_path (P := with_plugin) "myplugin.MyExecutor"
           with_plugin_boot) = Ok ("myplugin.MyExecutor", CUSTOM_PATH)
  ∧ res (import_executor_cls (P := with_plugin) "myplugin.MyExecutor"
           with_plugin_boot) =
      Ok ("airflow.executors.myplugin.MyExecutor", PLUGIN)
  ∧ calls (import_executor_cls (P := with_plugin) "myplugin.MyExecutor"
             with_plugin_boot) =
      [plugin_debug_line "myplugin.MyExecutor"; EvIntegratePlugins;
       EvImportString "airflow.executors.myplugin.MyExecutor"].
Proof.
  assert (Hkey : executors !! "myplugin.MyExecutor" = None)
    by (vm_compute; reflexivity).
  assert (Hdots : count_char "." "myplugin.MyExecutor" = 1)
    by (vm_compute; reflexivity).
  split; [exact Hkey|]. split; [exact Hdots|].
  split; [vm_compute; reflexivity|].
  rewrite (import_executor_cls_plugin_found (P := with_plugin)
             "myplugin.MyExecutor" with_plugin_boot
             (mkInterpreter
                ("airflow.executors.myplugin.MyExecutor"
                 :: "myplugin.MyExecutor" :: core_paths) 0)
             (mkInterpreter
                ("airflow.executors.myplugin.MyExecutor"
                 :: "myplugin.MyExecutor" :: core_paths) 0)
             "airflow.executors.myplugin.MyExecutor"
             Hkey Hdots eq_refl eq_refl).
  split; reflexivity.
Defined.

(** X6 on the platform whose plugin integration raises. *)
Lemma import_executor_cls_plugin_error_propagates_witness :
  "mymodule.MyBackend" ≠ CELERY_KUBERNETES_EXECUTOR
  ∧ executors !! "mymodule.MyBackend" = None
  ∧ count_char "." "mymodule.MyBackend" = 1
  ∧ is_ImportError_or_AttributeError plugins_broken = false
  ∧ res (import_executor_cls (P := broken_plugins) "mymodule.MyBackend"
           broken_plugins_boot) = Raise plugins_broken
  ∧ calls (import_executor_cls (P := broken_plugins) "mymodule.MyBackend"
             broken_plugins_boot) =
      [plugin_debug_line "mymodule.MyBackend"; EvIntegratePlugins]
  ∧ res (load_executor (P := broken_plugins) "mymodule.MyBackend"
           broken_plugins_boot) = Raise plugins_broken.
Proof.
  assert (Hne : "mymodule.MyBackend" ≠ CELERY_KUBERNETES_EXECUTOR)
    by (vm_compute; discriminate).
  assert (Hkey : executors !! "mymodule.MyBackend" = None)
    by (vm_compute; reflexivity).
  assert (Hdots : count_char "." "mymodule.MyBackend" = 1)
    by (vm_compute; reflexivity).
  split; [exact Hne|]. split; [exact Hkey|]. split; [exact Hdots|].
  split; [reflexivity|].
  exact (import_executor_cls_plugin_error_propagates (P := broken_plugins)
           "mymodule.MyBackend" broken_plugins_boot plugins_broken
           Hne Hkey Hdots eq_refl eq_refl).
Defined.

(** X7: the celery executor is registered and cannot be loaded. *)
Lemma import_executor_cls_registry_error_witness :
  executors !! "CeleryExecutor" =
    Some "airflow.executors.celery_executor.CeleryExecutor"
  ∧ import_executor_cls (P := plain) "CeleryExecutor" no_celery_boot =
      mkOutcome (P := plain)
        (Raise (ImportError
                  "No module named airflow.executors.celery_executor.CeleryExecutor"))
        no_celery_boot
        [EvImportString "airflow.executors.celery_executor.CeleryExecutor"].
Proof.
  assert (Hkey : executors !! "CeleryExecutor" =
                 Some "airflow.executors.celery_executor.CeleryExecutor")
    by (vm_compute; reflexivity).
  split; [exact Hkey|].
  exact (import_executor_cls_registry_error (P := plain) "CeleryExecutor" _
           no_celery_boot _ (world no_celery_boot) Hkey eq_refl).
Defined.

(** X12: the configuration names a path that does not exist. *)
Lemma get_default_executor_misconfigured_witness :
  "totally.bogus.path.NoSuchType" ≠ CELERY_KUBERNETES_EXECUTOR
  ∧ res (get_default_executor (P := misconfigured) misconfigured_boot) =
      Raise (AirflowConfigException
               (load_error_message "totally.bogus.path.NoSuchType"))
  ∧ contains "totally.bogus.path.NoSuchType"
      (load_error_message "totally.bogus.path.NoSuchType")
  ∧ _default_executor
      (st (get_default_executor (P := misconfigured) misconfigured_boot)) = None.
Proof.
  assert (Hne : "totally.bogus.path.NoSuchType" ≠ CELERY_KUBERNETES_EXECUTOR)
    by (vm_compute; discriminate).
  split; [exact Hne|].
  exact (get_default_executor_misconfigured (P := misconfigured)
           misconfigured_boot "totally.bogus.path.NoSuchType"
           (world misconfigured_boot)
           "No module named totally.bogus.path.NoSuchType"
           eq_refl eq_refl Hne eq_refl).
Defined.

(** X13: the configuration has no [core] section. *)
Lemma get_default_executor_conf_error_witness :
  _default_executor unconfigured_boot = None
  ∧ get_default_executor (P := unconfigured) unconfigured_boot =
      mkOutcome (P := unconfigured)
        (Raise (AirflowConfigException
                  "section/key [core/EXECUTOR] not found in config"))
        unconfigured_boot
        [EvConfGet "core" "EXECUTOR"].
Proof.
  split; [reflexivity|].
  exact (get_default_executor_conf_error (P := unconfigured) unconfigured_boot
           _ (world unconfigured_boot) eq_refl eq_refl).
Defined.

(** X14: the celery class cannot be loaded. *)
Lemma load_executor_composite_error_origin_witness :
  res (load_executor (P := plain) CELERY_KUBERNETES_EXECUTOR no_celery_boot) =
    Raise (ImportError
             "No module named airflow.executors.celery_executor.CeleryExecutor")
  ∧ ∃ w w',
      (∃ location,
          last (calls (load_executor (P := plain) CELERY_KUBERNETES_EXECUTOR
                         no_celery_boot)) = Some (EvImportString location)
          ∧ import_string_ext (Platform := plain) location w =
              (Raise (ImportError
                        "No module named airflow.executors.celery_executor.CeleryExecutor"),
               w'))
      ∨ (∃ cls args,
          last (calls (load_executor (P := plain) CELERY_KUBERNETES_EXECUTOR
                         no_celery_boot)) = Some (EvCall cls args)
          ∧ call_ext (Platform := plain) cls args w =
              (Raise (ImportError
                        "No module named airflow.executors.celery_executor.CeleryExecutor"),
               w')).
Proof.
  assert (Hres :
      res (load_executor (P := plain) CELERY_KUBERNETES_EXECUTOR no_celery_boot) =
      Raise (ImportError
               "No module named airflow.executors.celery_executor.CeleryExecutor"))
    by (vm_compute; reflexivity).
  split; [exact Hres|].
  exact (load_executor_composite_error_origin (P := plain) no_celery_boot _ Hres).
Defined.

(** X15: the constructor of the celery executor raises. *)
Lemma load_executor_composite_celery_constructor_error_witness :
  executors !! CELERY_EXECUTOR =
    Some "airflow.executors.celery_executor.CeleryExecutor"
  ∧ load_executor
      (P := fragile "airflow.executors.celery_executor.CeleryExecutor"
              (OtherException "broker unreachable"))
      CELERY_KUBERNETES_EXECUTOR
      (fragile_boot "airflow.executors.celery_executor.CeleryExecutor"
         (OtherException "broker unreachable")) =
    mkOutcome
      (P := fragile "airflow.executors.celery_executor.CeleryExecutor"
              (OtherException "broker unreachable"))
      (Raise (OtherException "broker unreachable"))
      (fragile_boot "airflow.executors.celery_executor.CeleryExecutor"
         (OtherException "broker unreachable"))
      [EvImportString "airflow.executors.celery_executor.CeleryExecutor";
       EvCall
         (P := fragile "airflow.executors.celery_executor.CeleryExecutor"
                 (OtherException "broker unreachable"))
         "airflow.executors.celery_executor.CeleryExecutor" []].
Proof.
  assert (Hkey : executors !! CELERY_EXECUTOR =
                 Some "airflow.executors.celery_executor.CeleryExecutor")
    by (vm_compute; reflexivity).
  split; [exact Hkey|].
  exact (load_executor_composite_celery_constructor_error
           (P := fragile "airflow.executors.celery_executor.CeleryExecutor"
                   (OtherException "broker unreachable"))
           (fragile_boot _ _) _
           "airflow.executors.celery_executor.CeleryExecutor"
           (mkInterpreter core_paths 0) (mkInterpreter core_paths 0) _
           Hkey eq_refl eq_refl).
Defined.

Lemma sample_names_distinct : NoDup (registry_keys (C := constants)).
Proof. apply (bool_decide_unpack _). vm_compute. exact I. Defined.

(** X17 on [SequentialExecutor]. *)
Lemma unpickleable_executors_registered_witness :
  "SequentialExecutor" ∈ UNPICKLEABLE_EXECUTORS
  ∧ is_Some (executors !! "SequentialExecutor")
  ∧ "SequentialExecutor" ≠ CELERY_KUBERNETES_EXECUTOR.
Proof.
  assert (Hin : "SequentialExecutor" ∈ UNPICKLEABLE_EXECUTORS (C := constants))
    by (apply list_elem_of_further, list_elem_of_here).
  destruct (unpickleable_executors_registered (C := constants)
              "SequentialExecutor" Hin) as [Hkey Hne].
  split; [exact Hin|]. split; [exact Hkey|exact (Hne sample_names_distinct)].
Defined.

(** X18 on [PLUGIN]. *)
Lemma ConnectorSource_unique_witness :
  ConnectorSource_value PLUGIN = ConnectorSource_value PLUGIN
  ∧ PLUGIN = PLUGIN.
Proof.
  split; [reflexivity|]. exact (ConnectorSource_unique PLUGIN PLUGIN eq_refl).
Defined.

(** X11 on the platform where the configured callable returns [None]. *)
Lemma get_default_executor_none_not_cached_witness :
  _default_executor returns_none_boot = None
  ∧ res (get_default_executor (P := returns_none) returns_none_boot) = Ok None
  ∧ is_None (Platform := returns_none) None = true
  ∧ _default_executor
      (st (get_default_executor (P := returns_none) returns_none_boot)) = None
  ∧ count_events (is_conf_get "core" "EXECUTOR")
      (calls (get_default_executor (P := returns_none) returns_none_boot)
       ++ calls (get_default_executor (P := returns_none)
                   (st (get_default_executor (P := returns_none)
                          returns_none_boot)))) = 2.
Proof.
  assert (Hres :
      res (get_default_executor (P := returns_none) returns_none_boot) = Ok None)
    by (vm_compute; reflexivity).
  destruct (get_default_executor_none_not_cached (P := returns_none)
              returns_none_boot None eq_refl Hres eq_refl)
    as (Hempty & _ & Hcount).
  split; [reflexivity|]. split; [exact Hres|]. split; [reflexivity|].
  split; [exact Hempty|exact Hcount].
Defined.

End Samples.
